(** * HtmlLengthService: length of an HTML string in words

    A shallow embedding of
    [core/templates/services/html-length.service.ts] and the properties of
    [computeHtmlLengthInWords] and of its two private helpers.

    Conventions of the embedding.
    - A JavaScript string is a [string]; one [ascii] stands for one UTF-16
      code unit (those below 256), so [String.length] is the [length]
      property.
    - A JavaScript number is a [Z].  Every number the service computes is a
      sum of products of lengths and table weights, which is exact in
      double precision below 2^53.
    - The DOM is a first-order tree: only [tagName], [textContent] and
      [querySelectorAll] are read by the service.
    - The sanitizer and the DOM parser are collaborators of the service:
      they are variables of the section that holds the service. *)

From Stdlib Require Import String Ascii List ZArith Lia Bool Permutation.
Import ListNotations.

Local Open Scope string_scope.
Local Open Scope Z_scope.

(** ** The JavaScript string and array operations the service calls *)

Module JS.

(** Code units [A]..[Z]. *)
Definition isUpper (c : ascii) : bool :=
  let n := nat_of_ascii c in (65 <=? n)%nat && (n <=? 90)%nat.

Definition isLower (c : ascii) : bool :=
  let n := nat_of_ascii c in (97 <=? n)%nat && (n <=? 122)%nat.

Definition lowerChar (c : ascii) : ascii :=
  if isUpper c then ascii_of_nat (nat_of_ascii c + 32) else c.

Definition upperChar (c : ascii) : ascii :=
  if isLower c then ascii_of_nat (nat_of_ascii c - 32) else c.

Fixpoint mapString (f : ascii -> ascii) (s : string) : string :=
  match s with
  | EmptyString => EmptyString
  | String c s' => String (f c) (mapString f s')
  end.

(** [String.prototype.toLowerCase].  The service only compares the result
    with the table keys, which are ASCII and hold no [k]; on such
    comparisons the Unicode mapping and the ASCII one agree. *)
Definition toLowerCase (s : string) : string := mapString lowerChar s.

(** ASCII upper-casing, which the DOM applies to the qualified name of an
    HTML element to form [tagName]. *)
Definition toUpperCase (s : string) : string := mapString upperChar s.

(** WhiteSpace and LineTerminator code units below 256:
    TAB, LF, VT, FF, CR, SP, NBSP. *)
Definition isWhiteSpace (c : ascii) : bool :=
  let n := nat_of_ascii c in
  ((9 <=? n)%nat && (n <=? 13)%nat) || (n =? 32)%nat || (n =? 160)%nat.

Fixpoint trimStart (s : string) : string :=
  match s with
  | EmptyString => EmptyString
  | String c s' => if isWhiteSpace c then trimStart s' else s
  end.

Fixpoint trimEnd (s : string) : string :=
  match s with
  | EmptyString => EmptyString
  | String c s' =>
      match trimEnd s' with
      | EmptyString => if isWhiteSpace c then EmptyString
                       else String c EmptyString
      | t => String c t
      end
  end.

(** [String.prototype.trim]. *)
Definition trim (s : string) : string := trimEnd (trimStart s).

(** [String.prototype.split] with a separator of one code unit: the
    pieces between the occurrences of [sep]; the empty string splits
    into one empty piece. *)
Fixpoint split (sep : ascii) (s : string) : list string :=
  match s with
  | EmptyString => [EmptyString]
  | String c s' =>
      if Ascii.eqb c sep then EmptyString :: split sep s'
      else match split sep s' with
           | w :: ws => String c w :: ws
           | [] => [String c EmptyString]
           end
  end.

(** [Array.prototype.some] and [Array.prototype.find]; [None] is
    [undefined]. *)
Definition some {A : Type} (p : A -> bool) (l : list A) : bool :=
  existsb p l.

Definition find {A : Type} (p : A -> bool) (l : list A) : option A :=
  List.find p l.

(** ToBoolean of a string: only the empty string is falsy. *)
Definition truthy (s : string) : bool :=
  match s with
  | EmptyString => false
  | String _ _ => true
  end.

(** [s || d] on strings. *)
Definition orElse (s d : string) : string := if truthy s then s else d.

End JS.

(** ** The part of the DOM the service reads *)

Module DOM.

(** HTML elements report an upper-cased [tagName]; elements of the SVG
    and MathML namespaces report their qualified name as it is. *)
Inductive Namespace : Type := HTML | SVG | MathML.

#[warnings="-register-all"]
Inductive Node : Type :=
| Text (data : string)
| Comment (data : string)
| Element (namespaceURI : Namespace) (localName : string)
          (childNodes : list Node).

Record Document : Type := { body : Node }.

(** [Element.tagName]; the service reads it on the results of
    [querySelectorAll] only, which are elements. *)
Definition tagName (n : Node) : string :=
  match n with
  | Element HTML name _ => JS.toUpperCase name
  | Element _ name _ => name
  | _ => EmptyString
  end.

(** [Node.textContent]: the data of a text node; for an element the
    concatenation of the text content of its children, comments left
    out. *)
Fixpoint textContent (n : Node) : string :=
  match n with
  | Text data => data
  | Comment data => data
  | Element _ _ ch =>
      (fix children (l : list Node) : string :=
         match l with
         | [] => EmptyString
         | Comment _ :: l' => children l'
         | c :: l' => textContent c ++ children l'
         end) ch
  end.

(** The descendants of a node in document order (pre-order, depth
    first), the node itself left out. *)
Fixpoint descendants (n : Node) : list Node :=
  match n with
  | Element _ _ ch => flat_map (fun c => c :: descendants c) ch
  | _ => []
  end.

(** A selector list of type selectors, as in ["p,ul,ol"]. *)
Definition selectorNames (selectors : string) : list string :=
  JS.split "," selectors.

(** Type-selector matching in an HTML document.  The selector is compared
    with the local name (for an HTML element after lower-casing the
    selector, which changes nothing in a lower-case selector). *)
Definition matches (selectors : string) (n : Node) : bool :=
  match n with
  | Element HTML name _ =>
      existsb (fun sel => JS.toLowerCase sel =? name)%string
              (selectorNames selectors)
  | Element _ name _ =>
      existsb (fun sel => sel =? name)%string (selectorNames selectors)
  | _ => false
  end.

(** [root.querySelectorAll(selectors)], as an array. *)
Definition querySelectorAll (root : Node) (selectors : string)
  : list Node :=
  filter (matches selectors) (descendants root).

End DOM.

(** ** A test double for the two collaborators

    The real sanitizer and the real parser live outside the service.  The
    double below reads the markup the examples use (start tags, end tags
    and text, well nested) and is used to run the service on concrete
    strings. *)

Module Fake.

Import DOM.

Inductive Token : Type :=
| StartTag (name : string)
| EndTag (name : string)
| Character (data : string).

Definition flushText (acc : string) : list Token :=
  match acc with
  | EmptyString => []
  | _ => [Character acc]
  end.

Definition tagToken (acc : string) : Token :=
  match acc with
  | String "/" name => EndTag (JS.toLowerCase name)
  | _ => StartTag (JS.toLowerCase acc)
  end.

Fixpoint tokenize (inTag : bool) (acc : string) (s : string) : list Token :=
  match s with
  | EmptyString => if inTag then [] else flushText acc
  | String c s' =>
      if inTag then
        if Ascii.eqb c ">" then tagToken acc :: tokenize false "" s'
        else tokenize true (acc ++ String c "") s'
      else
        if Ascii.eqb c "<" then (flushText acc ++ tokenize true "" s')%list
        else tokenize false (acc ++ String c "") s'
  end.

(** [stack] holds, for every open element, its name and the siblings
    before it (latest first); [cur] holds the children of the innermost
    open element (latest first). *)
Fixpoint closeAll (stack : list (string * list Node)) (cur : list Node)
  : list Node :=
  match stack with
  | [] => rev cur
  | (name, siblings) :: stack' =>
      closeAll stack' (Element HTML name (rev cur) :: siblings)
  end.

Fixpoint build (stack : list (string * list Node)) (cur : list Node)
  (ts : list Token) : list Node :=
  match ts with
  | [] => closeAll stack cur
  | Character data :: ts' => build stack (Text data :: cur) ts'
  | StartTag name :: ts' => build ((name, cur) :: stack) [] ts'
  | EndTag _ :: ts' =>
      match stack with
      | [] => build [] cur ts'
      | (name, siblings) :: stack' =>
          build stack' (Element HTML name (rev cur) :: siblings) ts'
      end
  end.

Definition parseFromString (s : string) (mimeType : string) : Document :=
  {| body := Element HTML "body" (build [] [] (tokenize false "" s)) |}.

End Fake.

(** ** The service *)

(** The two instance fields of [HtmlLengthService]: arrays of
    [[tag, weight]] pairs. *)
Record HtmlLengthService : Type := {
  nonTextTagsWithWeight : list (string * Z);
  textTagsWithWeight : list (string * Z)
}.

(** The field initialisers of the class. *)
Definition newHtmlLengthService : HtmlLengthService := {|
  nonTextTagsWithWeight :=
    [ ("oppia-noninteractive-math", 0);
      ("oppia-noninteractive-image", 0) ];
  textTagsWithWeight :=
    [ ("a", 1);
      ("collapsible", 1000);
      ("p", 1);
      ("ul", 1);
      ("ol", 1) ]
|}.

(** What a call can read and change: the fields of the service, and the
    messages handed to [loggerService.error] so far (oldest first). *)
Record State : Type := {
  this : HtmlLengthService;
  loggedErrors : list string
}.

(** A computation returns a value or throws (the [TypeError] of reading
    an index of [undefined]), and leaves a state either way. *)
Definition M (A : Type) : Type := State -> option A * State.

Definition ret {A : Type} (a : A) : M A := fun st => (Some a, st).

Definition throwTypeError {A : Type} : M A := fun st => (None, st).

Definition bind {A B : Type} (m : M A) (k : A -> M B) : M B :=
  fun st =>
    match m st with
    | (Some a, st') => k a st'
    | (None, st') => (None, st')
    end.

Definition getThis : M HtmlLengthService := fun st => (Some (this st), st).

Definition loggerService_error (message : string) : M unit :=
  fun st =>
    (Some tt,
     {| this := this st;
        loggedErrors := (loggedErrors st ++ [message])%list |}).

Declare Scope js_scope.
Delimit Scope js_scope with js.
Notation "x <- m ;; k" := (bind m (fun x => k))
  (at level 61, m at next level, right associativity) : js_scope.
Notation "m ;; k" := (bind m (fun _ => k))
  (at level 61, right associativity) : js_scope.
Local Open Scope js_scope.

Inductive SecurityContext : Type :=
| SC_NONE | SC_HTML | SC_STYLE | SC_SCRIPT | SC_URL | SC_RESOURCE_URL.

Definition emptyStringMessage : string :=
  "Empty string was passed to compute length".

Definition tagSelector : string :=
  "p,ul,ol,oppia-noninteractive-image,oppia-noninteractive-math".

(** [getWeightForTextNodes]. *)
Definition getWeightForTextNodes (textNode : DOM.Node) : M Z :=
  let textContent := JS.orElse (DOM.textContent textNode) "" in
  let words := JS.split " " (JS.trim textContent) in
  let wordCount := Z.of_nat (List.length words) in
  let ltag := JS.toLowerCase (DOM.tagName textNode) in
  if (ltag =? "a")%string then
    ret (Z.of_nat (String.length textContent))
  else
    self <- getThis ;;
    match JS.find (fun x => (fst x =? ltag)%string)
                  (textTagsWithWeight self) with
    | Some entry => let weight := snd entry in ret (wordCount * weight)
    | None => throwTypeError
    end.

(** [getWeightForNonTextNodes]. *)
Definition getWeightForNonTextNodes (nonTextNode : DOM.Node) : M Z :=
  let ltag := JS.toLowerCase (DOM.tagName nonTextNode) in
  self <- getThis ;;
  match JS.find (fun x => (fst x =? ltag)%string)
                (nonTextTagsWithWeight self) with
  | Some entry => let weight := snd entry in ret weight
  | None => throwTypeError
  end.

(** The body of [for (let tag of tagList)], with the local [totalWeight]
    passed along. *)
Fixpoint forEachTag (tagList : list DOM.Node) (totalWeight : Z) : M Z :=
  match tagList with
  | [] => ret totalWeight
  | tag :: rest =>
      let ltag := JS.toLowerCase (DOM.tagName tag) in
      self <- getThis ;;
      totalWeight <-
        (if JS.some (fun item => (fst item =? ltag)%string)
                    (textTagsWithWeight self)
         then w <- getWeightForTextNodes tag ;; ret (totalWeight + w)
         else ret totalWeight) ;;
      totalWeight <-
        (if JS.some (fun item => (fst item =? ltag)%string)
                    (nonTextTagsWithWeight self)
         then w <- getWeightForNonTextNodes tag ;; ret (totalWeight + w)
         else ret totalWeight) ;;
      forEachTag rest totalWeight
  end.

Section Service.

(** [this._sanitizer.sanitize] and [new DOMParser().parseFromString]. *)
Variable sanitize : SecurityContext -> string -> string.
Variable parseFromString : string -> string -> DOM.Document.

(** [computeHtmlLengthInWords]. *)
Definition computeHtmlLengthInWords (htmlString : string) : M Z :=
  if negb (JS.truthy htmlString) then
    loggerService_error emptyStringMessage ;;
    ret 0
  else
    let sanitizedHtml := sanitize SC_HTML htmlString in
    let dom := parseFromString sanitizedHtml "text/html" in
    let tagList := DOM.querySelectorAll (DOM.body dom) tagSelector in
    forEachTag tagList 0.

End Service.

(** The state of a freshly constructed service. *)
Definition initialState : State :=
  {| this := newHtmlLengthService; loggedErrors := [] |}.

(** The sanitizer of the test double lets everything through. *)
Definition Fake_sanitize (context : SecurityContext) (value : string)
  : string := value.

Definition Fake_run (htmlString : string) : option Z * State :=
  computeHtmlLengthInWords Fake_sanitize Fake.parseFromString htmlString
    initialState.

(** ** Vocabulary of the properties *)

(** Every code unit of [s] satisfies [p]. *)
Fixpoint allChars (p : ascii -> bool) (s : string) : bool :=
  match s with
  | EmptyString => true
  | String c s' => p c && allChars p s'
  end.

(** A word: a non-empty run of code units none of which is white space. *)
Definition isWord (w : string) : bool :=
  JS.truthy w && allChars (fun c => negb (JS.isWhiteSpace c)) w.

(** Words separated by single spaces. *)
Fixpoint joinWords (ws : list string) : string :=
  match ws with
  | [] => EmptyString
  | w :: rest =>
      match rest with
      | [] => w
      | _ :: _ => w ++ String " " (joinWords rest)
      end
  end.

(** The lower-cased tag name both helpers and the loop look up. *)
Definition ltagOf (tag : DOM.Node) : string :=
  JS.toLowerCase (DOM.tagName tag).

(** The two membership tests that guard the calls of the helpers. *)
Definition isTextTag (svc : HtmlLengthService) (tag : DOM.Node) : bool :=
  JS.some (fun item => (fst item =? ltagOf tag)%string)
          (textTagsWithWeight svc).

Definition isNonTextTag (svc : HtmlLengthService) (tag : DOM.Node) : bool :=
  JS.some (fun item => (fst item =? ltagOf tag)%string)
          (nonTextTagsWithWeight svc).

(** The state of a service with the initial tables, whatever was logged
    before. *)
Definition stateWithLog (lg : list string) : State :=
  {| this := newHtmlLengthService; loggedErrors := lg |}.

(** All weights of both tables are non-negative. *)
Definition nonNegativeWeights (svc : HtmlLengthService) : Prop :=
  Forall (fun item => 0 <= snd item) (textTagsWithWeight svc) /\
  Forall (fun item => 0 <= snd item) (nonTextTagsWithWeight svc).

(** The list example: one [ul] wrapping two [li] items, and the body a
    browser builds for it. *)
Definition ulExample : string := "<ul><li>one two</li><li>three</li></ul>".

Definition ulExampleList : DOM.Node :=
  DOM.Element DOM.HTML "ul"
    [ DOM.Element DOM.HTML "li" [DOM.Text "one two"];
      DOM.Element DOM.HTML "li" [DOM.Text "three"] ].

Definition ulExampleBody : DOM.Node :=
  DOM.Element DOM.HTML "body" [ulExampleList].

(** [Number.MAX_SAFE_INTEGER]: up to it the sums of integers the loop
    forms are exact in double precision, in whatever order they are
    taken. *)
Definition maxSafeInteger : Z := 2 ^ 53 - 1.

(** The number of occurrences of the code unit [c] in [s]. *)
Fixpoint countChar (c : ascii) (s : string) : nat :=
  match s with
  | EmptyString => 0%nat
  | String d s' => ((if Ascii.eqb d c then 1 else 0) + countChar c s')%nat
  end.

(** The [wordCount] of [getWeightForTextNodes] for the element [tag]. *)
Definition wordCountOf (tag : DOM.Node) : Z :=
  Z.of_nat (List.length (JS.split " " (JS.trim (DOM.textContent tag)))).

(** What the text helper and the non-text helper return for [tag] when
    they return; 0 stands in where they throw. *)
Definition textWeightOf (svc : HtmlLengthService) (tag : DOM.Node) : Z :=
  if (ltagOf tag =? "a")%string
  then Z.of_nat (String.length (DOM.textContent tag))
  else match JS.find (fun x => (fst x =? ltagOf tag)%string)
                     (textTagsWithWeight svc) with
       | Some entry => wordCountOf tag * snd entry
       | None => 0
       end.

Definition nonTextWeightOf (svc : HtmlLengthService) (tag : DOM.Node) : Z :=
  match JS.find (fun x => (fst x =? ltagOf tag)%string)
                (nonTextTagsWithWeight svc) with
  | Some entry => snd entry
  | None => 0
  end.

(** What one turn of the loop adds to [totalWeight] for [tag]. *)
Definition contributionOf (svc : HtmlLengthService) (tag : DOM.Node) : Z :=
  (if isTextTag svc tag then textWeightOf svc tag else 0)
  + (if isNonTextTag svc tag then nonTextWeightOf svc tag else 0).

Fixpoint sumZ (l : list Z) : Z :=
  match l with
  | [] => 0
  | x :: l' => x + sumZ l'
  end.

(** The names the selector lists, and among them the three whose text is
    counted. *)
Definition selectedNames : list string :=
  ["p"; "ul"; "ol"; "oppia-noninteractive-image";
   "oppia-noninteractive-math"].

Definition isSelectedName (tag : DOM.Node) : bool :=
  existsb (String.eqb (ltagOf tag)) selectedNames.

Definition isCounted (tag : DOM.Node) : bool :=
  existsb (String.eqb (ltagOf tag)) ["p"; "ul"; "ol"].

(** The score of a selected element under the initial tables. *)
Definition selectedScore (tag : DOM.Node) : Z :=
  if isCounted tag then wordCountOf tag else 0.

(** A paragraph nested in a list item. *)
Definition nestedParagraphBody (text : string) : DOM.Node :=
  DOM.Element DOM.HTML "body"
    [ DOM.Element DOM.HTML "ul"
        [ DOM.Element DOM.HTML "li"
            [ DOM.Element DOM.HTML "p" [DOM.Text text] ] ] ].




(** ** Strings *)

Section StringFacts.

Lemma orElse_empty (s : string) : JS.orElse s "" = s.
Proof. destruct s; reflexivity. Qed.

Lemma append_empty_inv (s t : string) : s ++ t = "" -> t = "".
Proof. destruct s; simpl; [auto | discriminate]. Qed.

Lemma trimStart_whitespace (s : string) :
  allChars JS.isWhiteSpace s = true -> JS.trimStart s = "".
Proof.
  induction s as [|c s IH]; simpl; intros H; [reflexivity|].
  apply andb_true_iff in H as [Hc Hs].
  rewrite Hc. auto.
Qed.

Lemma trim_whitespace (s : string) :
  allChars JS.isWhiteSpace s = true -> JS.trim s = "".
Proof.
  intros H. unfold JS.trim. rewrite trimStart_whitespace by assumption.
  reflexivity.
Qed.

Lemma trimEnd_no_whitespace (s : string) :
  allChars (fun c => negb (JS.isWhiteSpace c)) s = true -> JS.trimEnd s = s.
Proof.
  induction s as [|c s IH]; simpl; intros H; [reflexivity|].
  apply andb_true_iff in H as [Hc Hs].
  rewrite IH by assumption.
  apply negb_true_iff in Hc. rewrite Hc.
  destruct s; reflexivity.
Qed.

Lemma trimEnd_append (s t : string) :
  t <> "" -> JS.trimEnd t = t -> JS.trimEnd (s ++ t) = s ++ t.
Proof.
  intros Ht Hfix.
  induction s as [|c s IH]; simpl; [assumption|].
  rewrite IH.
  destruct (s ++ t) eqn:E; [|reflexivity].
  apply append_empty_inv in E. contradiction.
Qed.

Lemma not_whitespace_not_space (c : ascii) :
  JS.isWhiteSpace c = false -> Ascii.eqb c " " = false.
Proof.
  intros H. destruct (Ascii.eqb_spec c " ") as [->|]; [|reflexivity].
  discriminate H.
Qed.

Lemma split_one_word (w : string) :
  allChars (fun c => negb (JS.isWhiteSpace c)) w = true ->
  JS.split " " w = [w].
Proof.
  induction w as [|c w IH]; simpl; intros H; [reflexivity|].
  apply andb_true_iff in H as [Hc Hw].
  apply negb_true_iff in Hc.
  rewrite (not_whitespace_not_space _ Hc), IH by assumption.
  reflexivity.
Qed.

Lemma split_word_then_space (w rest : string) :
  allChars (fun c => negb (JS.isWhiteSpace c)) w = true ->
  JS.split " " (w ++ String " " rest) = w :: JS.split " " rest.
Proof.
  induction w as [|c w IH]; simpl; intros H; [reflexivity|].
  apply andb_true_iff in H as [Hc Hw].
  apply negb_true_iff in Hc.
  rewrite (not_whitespace_not_space _ Hc), IH by assumption.
  reflexivity.
Qed.

Lemma isWord_inv (w : string) :
  isWord w = true ->
  exists c w', w = String c w' /\ JS.isWhiteSpace c = false /\
    allChars (fun c => negb (JS.isWhiteSpace c)) w = true.
Proof.
  unfold isWord. intros H. apply andb_true_iff in H as [Hne Hall].
  destruct w as [|c w']; [discriminate|].
  exists c, w'. repeat split; [|assumption].
  simpl in Hall. apply andb_true_iff in Hall as [Hc _].
  now apply negb_true_iff in Hc.
Qed.

Lemma joinWords_cons (w : string) (rest : list string) :
  rest <> [] -> joinWords (w :: rest) = w ++ String " " (joinWords rest).
Proof. destruct rest; [contradiction | reflexivity]. Qed.

Lemma split_joinWords (ws : list string) :
  ws <> [] -> forallb isWord ws = true ->
  JS.split " " (joinWords ws) = ws.
Proof.
  induction ws as [|w rest IH]; intros Hne Hall; [contradiction|].
  simpl in Hall. apply andb_true_iff in Hall as [Hw Hrest].
  destruct (isWord_inv _ Hw) as (c & w' & -> & _ & Hchars).
  destruct rest as [|w2 rest].
  - simpl joinWords. now apply split_one_word.
  - rewrite joinWords_cons by discriminate.
    rewrite split_word_then_space by assumption.
    rewrite IH; [reflexivity | discriminate | assumption].
Qed.

Lemma joinWords_trimEnd (ws : list string) :
  ws <> [] -> forallb isWord ws = true ->
  JS.trimEnd (joinWords ws) = joinWords ws /\ joinWords ws <> "".
Proof.
  induction ws as [|w rest IH]; intros Hne Hall; [contradiction|].
  simpl in Hall. apply andb_true_iff in Hall as [Hw Hrest].
  destruct (isWord_inv _ Hw) as (c & w' & -> & _ & Hchars).
  destruct rest as [|w2 rest].
  - simpl joinWords. split; [now apply trimEnd_no_whitespace | discriminate].
  - rewrite joinWords_cons by discriminate.
    destruct IH as [IH1 IH2]; [discriminate | assumption |].
    split; [|discriminate].
    apply trimEnd_append; [discriminate|].
    now apply (trimEnd_append (String " " "")).
Qed.

Lemma joinWords_trim (ws : list string) :
  ws <> [] -> forallb isWord ws = true ->
  JS.trim (joinWords ws) = joinWords ws.
Proof.
  intros Hne Hall. unfold JS.trim.
  assert (Hstart : JS.trimStart (joinWords ws) = joinWords ws).
  { destruct ws as [|w rest]; [contradiction|].
    pose proof Hall as Hall'. simpl in Hall'.
    apply andb_true_iff in Hall' as [Hw _].
    destruct (isWord_inv _ Hw) as (c & w' & -> & Hc & _).
    destruct rest; simpl; rewrite Hc; reflexivity. }
  rewrite Hstart. now apply joinWords_trimEnd.
Qed.

End StringFacts.

(** ** Running the helpers and the loop *)

Section Runs.

Lemma bind_run {A B : Type} (m : M A) (k : A -> M B) (st st' : State)
  (a : A) :
  m st = (Some a, st') -> bind m k st = k a st'.
Proof. intros H. unfold bind. now rewrite H. Qed.

Lemma some_find {A : Type} (p : A -> bool) (l : list A) :
  JS.some p l = true -> exists x, JS.find p l = Some x /\ In x l.
Proof.
  unfold JS.some, JS.find.
  induction l as [|a l IH]; simpl; [discriminate|].
  destruct (p a) eqn:E; simpl.
  - intros _. exists a. auto.
  - intros H. destruct (IH H) as (x & Hx & Hin). exists x. auto.
Qed.

(** [getWeightForTextNodes] leaves the state alone; its outcome is read
    off the tag name, the text content and the table. *)
Lemma getWeightForTextNodes_run (textNode : DOM.Node) (st : State) :
  getWeightForTextNodes textNode st =
  (if (ltagOf textNode =? "a")%string
   then Some (Z.of_nat (String.length (DOM.textContent textNode)))
   else match JS.find (fun x => (fst x =? ltagOf textNode)%string)
                      (textTagsWithWeight (this st)) with
        | Some entry =>
            Some (Z.of_nat
                    (List.length
                       (JS.split " " (JS.trim (DOM.textContent textNode))))
                  * snd entry)
        | None => None
        end,
   st).
Proof.
  unfold getWeightForTextNodes, ltagOf. rewrite orElse_empty.
  destruct (JS.toLowerCase (DOM.tagName textNode) =? "a")%string;
    [reflexivity|].
  unfold bind, getThis.
  destruct (JS.find _ _); reflexivity.
Qed.

Lemma getWeightForNonTextNodes_run (nonTextNode : DOM.Node) (st : State) :
  getWeightForNonTextNodes nonTextNode st =
  (match JS.find (fun x => (fst x =? ltagOf nonTextNode)%string)
                 (nonTextTagsWithWeight (this st)) with
   | Some entry => Some (snd entry)
   | None => None
   end,
   st).
Proof.
  unfold getWeightForNonTextNodes, ltagOf, bind, getThis.
  destruct (JS.find _ _); reflexivity.
Qed.

Lemma text_call_returns (tag : DOM.Node) (st : State) :
  isTextTag (this st) tag = true ->
  exists w, getWeightForTextNodes tag st = (Some w, st) /\
            (nonNegativeWeights (this st) -> 0 <= w).
Proof.
  intros Hguard. rewrite getWeightForTextNodes_run.
  destruct (ltagOf tag =? "a")%string.
  - eexists. split; [reflexivity|]. intros _. lia.
  - destruct (some_find _ _ Hguard) as (entry & Hfind & Hin).
    rewrite Hfind. eexists. split; [reflexivity|].
    intros [Htext _]. rewrite Forall_forall in Htext.
    apply Z.mul_nonneg_nonneg; [lia | now apply Htext].
Qed.

Lemma non_text_call_returns (tag : DOM.Node) (st : State) :
  isNonTextTag (this st) tag = true ->
  exists w, getWeightForNonTextNodes tag st = (Some w, st) /\
            (nonNegativeWeights (this st) -> 0 <= w).
Proof.
  intros Hguard. rewrite getWeightForNonTextNodes_run.
  destruct (some_find _ _ Hguard) as (entry & Hfind & Hin).
  rewrite Hfind. eexists. split; [reflexivity|].
  intros [_ Hnon]. rewrite Forall_forall in Hnon. now apply Hnon.
Qed.

(** One turn of the loop adds the contribution of the text helper and of
    the non-text helper, each counted when its guard holds. *)
Lemma forEachTag_cons (tag : DOM.Node) (rest : list DOM.Node) (acc : Z)
  (st : State) (w1 w2 : Z) :
  (if isTextTag (this st) tag
   then getWeightForTextNodes tag st = (Some w1, st) else w1 = 0) ->
  (if isNonTextTag (this st) tag
   then getWeightForNonTextNodes tag st = (Some w2, st) else w2 = 0) ->
  forEachTag (tag :: rest) acc st = forEachTag rest (acc + w1 + w2) st.
Proof.
  unfold isTextTag, isNonTextTag, ltagOf. intros H1 H2.
  cbn [forEachTag].
  rewrite (bind_run getThis _ st st (this st) eq_refl).
  assert (Hfirst :
    (if JS.some
          (fun item => (fst item =? JS.toLowerCase (DOM.tagName tag))%string)
          (textTagsWithWeight (this st))
     then w <- getWeightForTextNodes tag ;; ret (acc + w)
     else ret acc) st = (Some (acc + w1), st)).
  { destruct (JS.some _ (textTagsWithWeight (this st))).
    - now rewrite (bind_run _ _ _ _ _ H1).
    - subst w1. now rewrite Z.add_0_r. }
  rewrite (bind_run _ _ _ _ _ Hfirst).
  assert (Hsecond :
    (if JS.some
          (fun item => (fst item =? JS.toLowerCase (DOM.tagName tag))%string)
          (nonTextTagsWithWeight (this st))
     then w <- getWeightForNonTextNodes tag ;; ret (acc + w1 + w)
     else ret (acc + w1)) st = (Some (acc + w1 + w2), st)).
  { destruct (JS.some _ (nonTextTagsWithWeight (this st))).
    - now rewrite (bind_run _ _ _ _ _ H2).
    - subst w2. now rewrite Z.add_0_r. }
  now rewrite (bind_run _ _ _ _ _ Hsecond).
Qed.

(** The loop returns, leaves the state alone, and only adds to the total
    when the weights of the tables are non-negative. *)
Lemma forEachTag_returns (tagList : list DOM.Node) :
  forall (acc : Z) (st : State),
  exists n, forEachTag tagList acc st = (Some n, st) /\
            (nonNegativeWeights (this st) -> acc <= n).
Proof.
  induction tagList as [|tag rest IH]; intros acc st.
  - exists acc. split; [reflexivity | intros _; lia].
  - assert (H1 : exists w1,
        (if isTextTag (this st) tag
         then getWeightForTextNodes tag st = (Some w1, st) else w1 = 0) /\
        (nonNegativeWeights (this st) -> 0 <= w1)).
    { destruct (isTextTag (this st) tag) eqn:E.
      - now apply text_call_returns.
      - exists 0. split; [reflexivity | intros _; lia]. }
    assert (H2 : exists w2,
        (if isNonTextTag (this st) tag
         then getWeightForNonTextNodes tag st = (Some w2, st) else w2 = 0) /\
        (nonNegativeWeights (this st) -> 0 <= w2)).
    { destruct (isNonTextTag (this st) tag) eqn:E.
      - now apply non_text_call_returns.
      - exists 0. split; [reflexivity | intros _; lia]. }
    destruct H1 as (w1 & Hrun1 & Hpos1), H2 as (w2 & Hrun2 & Hpos2).
    rewrite (forEachTag_cons tag rest acc st w1 w2 Hrun1 Hrun2).
    destruct (IH (acc + w1 + w2) st) as (n & Hn & Hle).
    exists n. split; [assumption|].
    intros Hnn. specialize (Hpos1 Hnn). specialize (Hpos2 Hnn).
    specialize (Hle Hnn). lia.
Qed.

Lemma newHtmlLengthService_nonNegative :
  nonNegativeWeights newHtmlLengthService.
Proof.
  split; simpl; repeat constructor; simpl; lia.
Qed.

(** The tag name the service looks up, for an element whose local name is
    one of the table keys. *)
Lemma ltagOf_p ns ch : ltagOf (DOM.Element ns "p" ch) = "p".
Proof. destruct ns; reflexivity. Qed.

Lemma ltagOf_image ns ch :
  ltagOf (DOM.Element ns "oppia-noninteractive-image" ch)
  = "oppia-noninteractive-image".
Proof. destruct ns; reflexivity. Qed.

Lemma ltagOf_math ns ch :
  ltagOf (DOM.Element ns "oppia-noninteractive-math" ch)
  = "oppia-noninteractive-math".
Proof. destruct ns; reflexivity. Qed.

(** What the selector lets through: elements named [p], [ul], [ol] or one
    of the two embeds.  Anchors and [collapsible] elements are not among
    them. *)
Lemma selected_tag_names (root e : DOM.Node) :
  In e (DOM.querySelectorAll root tagSelector) ->
  In (ltagOf e)
     ["p"; "ul"; "ol"; "oppia-noninteractive-image";
      "oppia-noninteractive-math"].
Proof.
  unfold DOM.querySelectorAll. intros H.
  apply filter_In in H as [_ H].
  destruct e as [d|d|ns name ch]; try discriminate H.
  assert (Hname : In name
     ["p"; "ul"; "ol"; "oppia-noninteractive-image";
      "oppia-noninteractive-math"]).
  { unfold DOM.matches in H.
    change (DOM.selectorNames tagSelector) with
      ["p"; "ul"; "ol"; "oppia-noninteractive-image";
       "oppia-noninteractive-math"] in H.
    destruct ns; cbn [existsb] in H;
      repeat (apply orb_true_iff in H as [H|H]);
      try discriminate H;
      apply String.eqb_eq in H; subst name; simpl; tauto. }
  simpl in Hname.
  destruct Hname as [<-|[<-|[<-|[<-|[<-|[]]]]]];
    destruct ns; simpl; tauto.
Qed.

(** So the anchor branch of [getWeightForTextNodes] and the [collapsible]
    entry of the table are never reached from the loop. *)
Lemma anchor_and_collapsible_never_selected (root e : DOM.Node) :
  In e (DOM.querySelectorAll root tagSelector) ->
  ltagOf e <> "a" /\ ltagOf e <> "collapsible".
Proof.
  intros H. apply selected_tag_names in H. simpl in H.
  split; intros E; rewrite E in H;
    repeat (destruct H as [H|H]; [discriminate H|]); exact H.
Qed.

End Runs.

(** ** Contributions of the selected elements, with the initial tables *)

Section Contributions.

Lemma p_contribution ns ch (rest : list DOM.Node) (acc : Z) lg :
  forEachTag (DOM.Element ns "p" ch :: rest) acc (stateWithLog lg) =
  forEachTag rest
    (acc + Z.of_nat
             (List.length
                (JS.split " "
                   (JS.trim (DOM.textContent (DOM.Element ns "p" ch))))) * 1)
    (stateWithLog lg).
Proof.
  rewrite (forEachTag_cons _ _ _ _
    (Z.of_nat
       (List.length
          (JS.split " "
             (JS.trim (DOM.textContent (DOM.Element ns "p" ch))))) * 1) 0).
  - f_equal. lia.
  - replace (isTextTag (this (stateWithLog lg)) (DOM.Element ns "p" ch))
      with true by (unfold isTextTag; rewrite ltagOf_p; reflexivity).
    rewrite getWeightForTextNodes_run, ltagOf_p. reflexivity.
  - replace (isNonTextTag (this (stateWithLog lg)) (DOM.Element ns "p" ch))
      with false by (unfold isNonTextTag; rewrite ltagOf_p; reflexivity).
    reflexivity.
Qed.

Lemma image_contribution ns ch (rest : list DOM.Node) (acc : Z) lg :
  forEachTag (DOM.Element ns "oppia-noninteractive-image" ch :: rest) acc
    (stateWithLog lg)
  = forEachTag rest acc (stateWithLog lg).
Proof.
  rewrite (forEachTag_cons _ _ _ _ 0 0).
  - f_equal. lia.
  - replace (isTextTag _ _) with false
      by (unfold isTextTag; rewrite ltagOf_image; reflexivity).
    reflexivity.
  - replace (isNonTextTag _ _) with true
      by (unfold isNonTextTag; rewrite ltagOf_image; reflexivity).
    rewrite getWeightForNonTextNodes_run, ltagOf_image. reflexivity.
Qed.

Lemma math_contribution ns ch (rest : list DOM.Node) (acc : Z) lg :
  forEachTag (DOM.Element ns "oppia-noninteractive-math" ch :: rest) acc
    (stateWithLog lg)
  = forEachTag rest acc (stateWithLog lg).
Proof.
  rewrite (forEachTag_cons _ _ _ _ 0 0).
  - f_equal. lia.
  - replace (isTextTag _ _) with false
      by (unfold isTextTag; rewrite ltagOf_math; reflexivity).
    reflexivity.
  - replace (isNonTextTag _ _) with true
      by (unfold isNonTextTag; rewrite ltagOf_math; reflexivity).
    rewrite getWeightForNonTextNodes_run, ltagOf_math. reflexivity.
Qed.

End Contributions.

(** ** Properties of the service *)

(** C1 (as amended): on an anchor element [getWeightForTextNodes] returns
    the number of code units of the text content as it stands, leading and
    trailing white space included; it is neither a word count nor
    multiplied by a table weight, whatever the tables hold. *)
Theorem anchor_weight_is_text_length (st : State) (tag : DOM.Node) :
  ltagOf tag = "a" ->
  getWeightForTextNodes tag st =
  (Some (Z.of_nat (String.length (DOM.textContent tag))), st).
Proof.
  intros Ha. rewrite getWeightForTextNodes_run, Ha. reflexivity.
Qed.

(** C2 (the code at the failing input): a [collapsible] block of two
    words is parsed into one element, the selector lets no element
    through, and the service returns 0, although the helper would score
    the block 2000. *)
Theorem collapsible_block_scores_zero :
  let html := "<collapsible>one two</collapsible>" in
  let block := DOM.Element DOM.HTML "collapsible" [DOM.Text "one two"] in
  let dom := Fake.parseFromString (Fake_sanitize SC_HTML html) "text/html" in
  DOM.body dom = DOM.Element DOM.HTML "body" [block] /\
  DOM.querySelectorAll (DOM.body dom) tagSelector = [] /\
  Fake_run html = (Some 0, initialState) /\
  getWeightForTextNodes block initialState = (Some 2000, initialState).
Proof. repeat split. Qed.

(** C3 (as amended): for [<ul><li>one two</li><li>three</li></ul>] the
    text of the [li] items counts toward the enclosing [ul], whose text
    content is [one twothree]; the service returns 2. *)
Theorem ul_example_scores_two
  (sanitize : SecurityContext -> string -> string)
  (parseFromString : string -> string -> DOM.Document) (lg : list string) :
  DOM.body (parseFromString (sanitize SC_HTML ulExample) "text/html")
  = ulExampleBody ->
  computeHtmlLengthInWords sanitize parseFromString ulExample
    (stateWithLog lg)
  = (Some 2, stateWithLog lg).
Proof.
  intros Hdom. unfold computeHtmlLengthInWords.
  change (negb (JS.truthy ulExample)) with false. cbv beta iota zeta.
  rewrite Hdom. reflexivity.
Qed.

(** C4 (as amended): one [p] element, the only element selected, whose
    text content is N words separated by single spaces, N at least 1,
    scores N times 1.  (A paragraph of no words scores 1, not 0.) *)
Theorem paragraph_scores_word_count
  (sanitize : SecurityContext -> string -> string)
  (parseFromString : string -> string -> DOM.Document)
  (html : string) (lg : list string)
  ns ch (words : list string) :
  JS.truthy html = true ->
  DOM.querySelectorAll
    (DOM.body (parseFromString (sanitize SC_HTML html) "text/html"))
    tagSelector = [DOM.Element ns "p" ch] ->
  DOM.textContent (DOM.Element ns "p" ch) = joinWords words ->
  words <> [] ->
  forallb isWord words = true ->
  computeHtmlLengthInWords sanitize parseFromString html (stateWithLog lg)
  = (Some (Z.of_nat (List.length words) * 1), stateWithLog lg).
Proof.
  intros Htruthy Hsel Htext Hne Hwords.
  unfold computeHtmlLengthInWords. rewrite Htruthy. cbn [negb].
  cbv beta iota zeta. rewrite Hsel, p_contribution, Htext.
  rewrite joinWords_trim, split_joinWords by assumption.
  reflexivity.
Qed.

(** C5: on the empty string (the one falsy string) the service returns 0
    and hands exactly one message to the logger; on every other string it
    logs nothing. *)
Theorem empty_input_logs_once
  (sanitize : SecurityContext -> string -> string)
  (parseFromString : string -> string -> DOM.Document)
  (html : string) (st : State) :
  (JS.truthy html = false ->
   html = "" /\
   computeHtmlLengthInWords sanitize parseFromString html st =
   (Some 0,
    {| this := this st;
       loggedErrors := (loggedErrors st ++ [emptyStringMessage])%list |}))
  /\
  (JS.truthy html = true ->
   loggedErrors
     (snd (computeHtmlLengthInWords sanitize parseFromString html st))
   = loggedErrors st).
Proof.
  split; intros Htruthy; unfold computeHtmlLengthInWords; rewrite Htruthy;
    cbn [negb].
  - split; [destruct html; [reflexivity | discriminate]|]. reflexivity.
  - cbv beta iota zeta.
    destruct (forEachTag_returns
                (DOM.querySelectorAll
                   (DOM.body
                      (parseFromString (sanitize SC_HTML html) "text/html"))
                   tagSelector) 0 st) as (n & Hrun & _).
    rewrite Hrun. reflexivity.
Qed.

(** C6: when the elements selected are one image embed and one math embed
    (in either order), the service returns 0, whatever the embeds hold. *)
Theorem image_and_math_score_zero
  (sanitize : SecurityContext -> string -> string)
  (parseFromString : string -> string -> DOM.Document)
  (html : string) (lg : list string) ns1 ch1 ns2 ch2 :
  let image := DOM.Element ns1 "oppia-noninteractive-image" ch1 in
  let math := DOM.Element ns2 "oppia-noninteractive-math" ch2 in
  let tagList :=
    DOM.querySelectorAll
      (DOM.body (parseFromString (sanitize SC_HTML html) "text/html"))
      tagSelector in
  JS.truthy html = true ->
  tagList = [image; math] \/ tagList = [math; image] ->
  computeHtmlLengthInWords sanitize parseFromString html (stateWithLog lg)
  = (Some 0, stateWithLog lg).
Proof.
  intros image math tagList Htruthy Hsel.
  unfold computeHtmlLengthInWords. rewrite Htruthy. cbn [negb].
  cbv beta iota zeta. fold tagList.
  destruct Hsel as [-> | ->]; unfold image, math;
    rewrite ?image_contribution, ?math_contribution, ?image_contribution;
    reflexivity.
Qed.

(** C7: for every input the service returns (it does not throw) and the
    number it returns is a non-negative integer. *)
Theorem result_is_non_negative
  (sanitize : SecurityContext -> string -> string)
  (parseFromString : string -> string -> DOM.Document)
  (html : string) (lg : list string) :
  exists (n : Z) (st' : State),
    computeHtmlLengthInWords sanitize parseFromString html (stateWithLog lg)
    = (Some n, st') /\ 0 <= n.
Proof.
  unfold computeHtmlLengthInWords.
  destruct (JS.truthy html); cbn [negb].
  - cbv beta iota zeta.
    destruct (forEachTag_returns
                (DOM.querySelectorAll
                   (DOM.body
                      (parseFromString (sanitize SC_HTML html) "text/html"))
                   tagSelector) 0 (stateWithLog lg)) as (n & Hrun & Hle).
    exists n, (stateWithLog lg). split; [assumption|].
    apply Hle, newHtmlLengthService_nonNegative.
  - eexists _, _. split; [reflexivity | lia].
Qed.

(** C8: a helper called under its guard finds the entry of the tag in the
    table the guard tested, so it returns; hence no call of the service
    reaches the failing read, whatever the tables hold. *)
Theorem guarded_lookup_succeeds (st : State) (tag : DOM.Node) :
  (isTextTag (this st) tag = true ->
   (exists entry,
      JS.find (fun x => (fst x =? ltagOf tag)%string)
              (textTagsWithWeight (this st)) = Some entry) /\
   fst (getWeightForTextNodes tag st) <> None)
  /\
  (isNonTextTag (this st) tag = true ->
   (exists entry,
      JS.find (fun x => (fst x =? ltagOf tag)%string)
              (nonTextTagsWithWeight (this st)) = Some entry) /\
   fst (getWeightForNonTextNodes tag st) <> None)
  /\
  (forall (sanitize : SecurityContext -> string -> string)
          (parseFromString : string -> string -> DOM.Document)
          (html : string),
   fst (computeHtmlLengthInWords sanitize parseFromString html st) <> None).
Proof.
  repeat split.
  - destruct (some_find _ _ H) as (entry & Hfind & _). now exists entry.
  - destruct (text_call_returns _ _ H) as (w & Hrun & _).
    rewrite Hrun. discriminate.
  - destruct (some_find _ _ H) as (entry & Hfind & _). now exists entry.
  - destruct (non_text_call_returns _ _ H) as (w & Hrun & _).
    rewrite Hrun. discriminate.
  - intros sanitize parseFromString html.
    unfold computeHtmlLengthInWords.
    destruct (JS.truthy html); cbn [negb]; [|discriminate].
    cbv beta iota zeta.
    destruct (forEachTag_returns
                (DOM.querySelectorAll
                   (DOM.body
                      (parseFromString (sanitize SC_HTML html) "text/html"))
                   tagSelector) 0 st) as (n & Hrun & _).
    rewrite Hrun. discriminate.
Qed.

(** C9: a second call on the same input, made in the state the first call
    left, returns what the first returned, and neither call changes the
    fields of the service; a call on a non-empty string changes nothing
    at all. *)
Theorem calls_are_repeatable
  (sanitize : SecurityContext -> string -> string)
  (parseFromString : string -> string -> DOM.Document)
  (html : string) (st : State) :
  let first := computeHtmlLengthInWords sanitize parseFromString html st in
  let second :=
    computeHtmlLengthInWords sanitize parseFromString html (snd first) in
  fst second = fst first /\
  this (snd first) = this st /\
  this (snd second) = this st /\
  (if JS.truthy html then snd first = st else True).
Proof.
  unfold computeHtmlLengthInWords.
  destruct (JS.truthy html); cbn [negb]; cbv beta iota zeta.
  - destruct (forEachTag_returns
                (DOM.querySelectorAll
                   (DOM.body
                      (parseFromString (sanitize SC_HTML html) "text/html"))
                   tagSelector) 0 st) as (n & Hrun & _).
    rewrite Hrun. cbn [fst snd]. rewrite Hrun. cbn [fst snd]. tauto.
  - repeat split.
Qed.

(** C10: on an element that is not an anchor and whose text content is
    empty or white space only, [getWeightForTextNodes] returns 1 times the
    multiplier of the tag: the trimmed text is empty and splits into one
    empty piece. *)
Theorem empty_text_counts_one_word (st : State) (tag : DOM.Node)
  (entry : string * Z) :
  ltagOf tag <> "a" ->
  JS.find (fun x => (fst x =? ltagOf tag)%string)
          (textTagsWithWeight (this st)) = Some entry ->
  allChars JS.isWhiteSpace (DOM.textContent tag) = true ->
  JS.split " " (JS.trim (DOM.textContent tag)) = [""] /\
  getWeightForTextNodes tag st = (Some (1 * snd entry), st).
Proof.
  intros Hnot Hfind Hblank.
  rewrite getWeightForTextNodes_run, Hfind, trim_whitespace by assumption.
  apply String.eqb_neq in Hnot. rewrite Hnot.
  split; reflexivity.
Qed.

(** ** The properties at concrete inputs *)

(** The anchor [<a> hi </a>] taken alone: the helper returns 4, the length
    of the text with its two spaces. *)
Lemma anchor_weight_is_text_length_witness :
  getWeightForTextNodes (DOM.Element DOM.HTML "a" [DOM.Text " hi "])
    initialState
  = (Some 4, initialState).
Proof.
  apply (anchor_weight_is_text_length initialState
           (DOM.Element DOM.HTML "a" [DOM.Text " hi "])).
  reflexivity.
Defined.

(** C1 as stated fails on [<a> hi </a>]: the string holds one anchor whose
    trimmed text has 2 code units, yet the service returns 0, not 2 (the
    selector lets no anchor through); and the helper, applied to that
    anchor, returns 4, the length before trimming. *)
Lemma anchor_is_not_scored_by_trimmed_length :
  let html := "<a> hi </a>" in
  let anchor := DOM.Element DOM.HTML "a" [DOM.Text " hi "] in
  DOM.body (Fake.parseFromString (Fake_sanitize SC_HTML html) "text/html")
  = DOM.Element DOM.HTML "body" [anchor] /\
  Z.of_nat (String.length (JS.trim (DOM.textContent anchor))) = 2 /\
  fst (Fake_run html) = Some 0 /\
  fst (Fake_run html) <> Some 2 /\
  fst (getWeightForTextNodes anchor initialState) = Some 4 /\
  fst (getWeightForTextNodes anchor initialState) <> Some 2.
Proof.
  repeat split; vm_compute; discriminate.
Qed.

Lemma ul_example_scores_two_witness :
  computeHtmlLengthInWords Fake_sanitize Fake.parseFromString ulExample
    (stateWithLog [])
  = (Some 2, stateWithLog []).
Proof.
  apply (ul_example_scores_two Fake_sanitize Fake.parseFromString []).
  reflexivity.
Defined.

(** C3 as stated fails on its own input: the text content of the [ul] is
    [one twothree], two pieces when split on a space, and the service
    returns 2, not 3. *)
Lemma ul_example_does_not_score_three :
  DOM.body
    (Fake.parseFromString (Fake_sanitize SC_HTML ulExample) "text/html")
  = ulExampleBody /\
  DOM.textContent ulExampleList = "one twothree" /\
  JS.split " " (JS.trim (DOM.textContent ulExampleList))
  = ["one"; "twothree"] /\
  fst (Fake_run ulExample) = Some 2 /\
  fst (Fake_run ulExample) <> Some 3.
Proof.
  repeat split; vm_compute; discriminate.
Qed.

Lemma paragraph_scores_word_count_witness :
  computeHtmlLengthInWords Fake_sanitize Fake.parseFromString
    "<p>the quick brown fox</p>" (stateWithLog [])
  = (Some 4, stateWithLog []).
Proof.
  apply (paragraph_scores_word_count Fake_sanitize Fake.parseFromString
           "<p>the quick brown fox</p>" [] DOM.HTML
           [DOM.Text "the quick brown fox"]
           ["the"; "quick"; "brown"; "fox"]).
  - reflexivity.
  - reflexivity.
  - reflexivity.
  - discriminate.
  - reflexivity.
Defined.

(** C4 as stated fails at N = 0: [<p></p>] holds one [p], the only element
    selected, whose text content is no words at all; the trimmed text
    splits into one empty piece and the service returns 1, not 0 times
    1. *)
Lemma empty_paragraph_does_not_score_zero :
  let html := "<p></p>" in
  let p := DOM.Element DOM.HTML "p" [] in
  let words : list string := [] in
  DOM.querySelectorAll
    (DOM.body (Fake.parseFromString (Fake_sanitize SC_HTML html) "text/html"))
    tagSelector = [p] /\
  DOM.textContent p = joinWords words /\
  JS.split " " (JS.trim (DOM.textContent p)) = [""] /\
  fst (Fake_run html) = Some 1 /\
  fst (Fake_run html) <> Some (Z.of_nat (List.length words) * 1).
Proof.
  repeat split; vm_compute; discriminate.
Qed.

Lemma empty_input_logs_once_witness :
  Fake_run ""
  = (Some 0,
     {| this := newHtmlLengthService;
        loggedErrors := [emptyStringMessage] |}) /\
  loggedErrors (snd (Fake_run "<p>one</p>")) = [].
Proof.
  split.
  - apply (empty_input_logs_once Fake_sanitize Fake.parseFromString ""
             initialState).
    reflexivity.
  - apply (empty_input_logs_once Fake_sanitize Fake.parseFromString
             "<p>one</p>" initialState).
    reflexivity.
Defined.

Lemma image_and_math_score_zero_witness :
  computeHtmlLengthInWords Fake_sanitize Fake.parseFromString
    "<oppia-noninteractive-image></oppia-noninteractive-image><oppia-noninteractive-math></oppia-noninteractive-math>"
    (stateWithLog [])
  = (Some 0, stateWithLog []).
Proof.
  apply (image_and_math_score_zero Fake_sanitize Fake.parseFromString
           _ [] DOM.HTML [] DOM.HTML []).
  - reflexivity.
  - left. reflexivity.
Defined.

Lemma guarded_lookup_succeeds_witness :
  fst (getWeightForTextNodes ulExampleList initialState) <> None /\
  fst (getWeightForNonTextNodes
         (DOM.Element DOM.HTML "oppia-noninteractive-math" [])
         initialState) <> None.
Proof.
  split.
  - apply (guarded_lookup_succeeds initialState ulExampleList).
    reflexivity.
  - apply (guarded_lookup_succeeds initialState
             (DOM.Element DOM.HTML "oppia-noninteractive-math" [])).
    reflexivity.
Defined.

Lemma empty_text_counts_one_word_witness :
  getWeightForTextNodes (DOM.Element DOM.HTML "p" [DOM.Text "  "])
    initialState
  = (Some 1, initialState).
Proof.
  apply (empty_text_counts_one_word initialState
           (DOM.Element DOM.HTML "p" [DOM.Text "  "]) ("p", 1)).
  - vm_compute. discriminate.
  - reflexivity.
  - reflexivity.
Defined.

(** ** More on strings: pieces, spaces and trimming *)

Section MoreStringFacts.

Lemma append_empty_r (s : string) : s ++ "" = s.
Proof. induction s as [|c s IH]; simpl; [reflexivity | now rewrite IH]. Qed.

(** [split] returns one piece more than there are separators. *)
Lemma split_length (sep : ascii) (s : string) :
  List.length (JS.split sep s) = S (countChar sep s).
Proof.
  induction s as [|c s IH]; [reflexivity|].
  cbn [JS.split countChar].
  destruct (Ascii.eqb c sep).
  - cbn [List.length]. now rewrite IH.
  - destruct (JS.split sep s) as [|w ws]; [discriminate IH|].
    cbn [List.length] in *. lia.
Qed.

Lemma countChar_trimStart_le (c : ascii) (s : string) :
  (countChar c (JS.trimStart s) <= countChar c s)%nat.
Proof.
  induction s as [|d s IH]; [apply Nat.le_refl|].
  cbn [JS.trimStart]. destruct (JS.isWhiteSpace d); [|apply Nat.le_refl].
  cbn [countChar]. lia.
Qed.

Lemma countChar_trimEnd_le (c : ascii) (s : string) :
  (countChar c (JS.trimEnd s) <= countChar c s)%nat.
Proof.
  induction s as [|d s IH]; [apply Nat.le_refl|].
  cbn [JS.trimEnd]. destruct (JS.trimEnd s) as [|a t].
  - destruct (JS.isWhiteSpace d); cbn [countChar]; lia.
  - cbn [countChar] in *. lia.
Qed.

Lemma countChar_trim_le (c : ascii) (s : string) :
  (countChar c (JS.trim s) <= countChar c s)%nat.
Proof.
  unfold JS.trim.
  eapply Nat.le_trans; [apply countChar_trimEnd_le|].
  apply countChar_trimStart_le.
Qed.

Lemma trimEnd_whitespace (s : string) :
  allChars JS.isWhiteSpace s = true -> JS.trimEnd s = "".
Proof.
  induction s as [|c s IH]; simpl; intros H; [reflexivity|].
  apply andb_true_iff in H as [Hc Hs].
  now rewrite IH, Hc.
Qed.

Lemma trimStart_app_whitespace (before s : string) :
  allChars JS.isWhiteSpace before = true ->
  JS.trimStart (before ++ s) = JS.trimStart s.
Proof.
  induction before as [|c b IH]; simpl; intros H; [reflexivity|].
  apply andb_true_iff in H as [Hc Hb].
  rewrite Hc. auto.
Qed.

Lemma trimEnd_app_whitespace (s after : string) :
  allChars JS.isWhiteSpace after = true ->
  JS.trimEnd (s ++ after) = JS.trimEnd s.
Proof.
  intros H. induction s as [|c s IH].
  - simpl. now apply trimEnd_whitespace.
  - cbn [append JS.trimEnd]. now rewrite IH.
Qed.

Lemma trim_app_whitespace (s after : string) :
  allChars JS.isWhiteSpace after = true ->
  JS.trim (s ++ after) = JS.trim s.
Proof.
  intros H. unfold JS.trim.
  induction s as [|c s IH].
  - simpl. now rewrite trimStart_whitespace.
  - cbn [append JS.trimStart].
    destruct (JS.isWhiteSpace c); [exact IH|].
    now apply (trimEnd_app_whitespace (String c s)).
Qed.

Lemma trim_surrounded (before s after : string) :
  allChars JS.isWhiteSpace before = true ->
  allChars JS.isWhiteSpace after = true ->
  JS.trim (before ++ s ++ after) = JS.trim s.
Proof.
  intros Hb Ha.
  transitivity (JS.trim (s ++ after)); [|now apply trim_app_whitespace].
  unfold JS.trim. now rewrite trimStart_app_whitespace.
Qed.

End MoreStringFacts.

(** ** The loop in closed form *)

Section ClosedForm.

Lemma some_false_find {A : Type} (p : A -> bool) (l : list A) :
  JS.some p l = false -> JS.find p l = None.
Proof.
  unfold JS.some, JS.find.
  induction l as [|a l IH]; simpl; [reflexivity|].
  destruct (p a); simpl; [discriminate | exact IH].
Qed.

Lemma guarded_text_weight (tag : DOM.Node) (st : State) :
  isTextTag (this st) tag = true ->
  getWeightForTextNodes tag st = (Some (textWeightOf (this st) tag), st).
Proof.
  intros H. rewrite getWeightForTextNodes_run.
  unfold textWeightOf, wordCountOf.
  destruct (ltagOf tag =? "a")%string; [reflexivity|].
  destruct (some_find _ _ H) as (entry & Hfind & _).
  now rewrite Hfind.
Qed.

Lemma guarded_non_text_weight (tag : DOM.Node) (st : State) :
  isNonTextTag (this st) tag = true ->
  getWeightForNonTextNodes tag st
  = (Some (nonTextWeightOf (this st) tag), st).
Proof.
  intros H. rewrite getWeightForNonTextNodes_run.
  unfold nonTextWeightOf.
  destruct (some_find _ _ H) as (entry & Hfind & _).
  now rewrite Hfind.
Qed.

(** The loop returns the total it was given plus the contributions of the
    elements, and leaves the state as it found it. *)
Lemma forEachTag_sum (tagList : list DOM.Node) :
  forall (acc : Z) (st : State),
  forEachTag tagList acc st
  = (Some (acc + sumZ (map (contributionOf (this st)) tagList)), st).
Proof.
  induction tagList as [|tag rest IH]; intros acc st.
  - cbn [forEachTag map sumZ]. unfold ret. now rewrite Z.add_0_r.
  - rewrite (forEachTag_cons tag rest acc st
      (if isTextTag (this st) tag then textWeightOf (this st) tag else 0)
      (if isNonTextTag (this st) tag
       then nonTextWeightOf (this st) tag else 0)).
    + rewrite IH. cbn [map sumZ]. unfold contributionOf.
      do 2 f_equal. lia.
    + destruct (isTextTag (this st) tag) eqn:E;
        [now apply guarded_text_weight | reflexivity].
    + destruct (isNonTextTag (this st) tag) eqn:E;
        [now apply guarded_non_text_weight | reflexivity].
Qed.

Lemma sumZ_app (l1 l2 : list Z) : sumZ (l1 ++ l2)%list = sumZ l1 + sumZ l2.
Proof. induction l1 as [|x l1 IH]; cbn [app sumZ]; lia. Qed.

Lemma sumZ_Permutation (l1 l2 : list Z) :
  Permutation l1 l2 -> sumZ l1 = sumZ l2.
Proof. induction 1; cbn [sumZ]; lia. Qed.

(** A call on a non-empty string is the loop over the selected elements,
    started at 0. *)
Lemma computeHtmlLengthInWords_run
  (sanitize : SecurityContext -> string -> string)
  (parseFromString : string -> string -> DOM.Document)
  (html : string) (st : State) :
  JS.truthy html = true ->
  computeHtmlLengthInWords sanitize parseFromString html st
  = forEachTag
      (DOM.querySelectorAll
         (DOM.body (parseFromString (sanitize SC_HTML html) "text/html"))
         tagSelector) 0 st.
Proof.
  intros H. unfold computeHtmlLengthInWords. now rewrite H.
Qed.

Lemma querySelectorAll_children_app ns name (ch1 ch2 : list DOM.Node)
  (selectors : string) :
  DOM.querySelectorAll (DOM.Element ns name (ch1 ++ ch2)%list) selectors
  = (DOM.querySelectorAll (DOM.Element ns name ch1) selectors
     ++ DOM.querySelectorAll (DOM.Element ns name ch2) selectors)%list.
Proof.
  unfold DOM.querySelectorAll. cbn [DOM.descendants].
  now rewrite flat_map_app, filter_app.
Qed.

Lemma wordCountOf_positive (tag : DOM.Node) : 1 <= wordCountOf tag.
Proof. unfold wordCountOf. rewrite split_length. lia. Qed.

Lemma wordCountOf_joinWords (tag : DOM.Node) (words : list string) :
  DOM.textContent tag = joinWords words ->
  words <> [] -> forallb isWord words = true ->
  wordCountOf tag = Z.of_nat (List.length words).
Proof.
  intros Htext Hne Hwords. unfold wordCountOf.
  now rewrite Htext, joinWords_trim, split_joinWords.
Qed.

(** Under the initial tables a selected element adds its word count when
    it is a [p], [ul] or [ol], and nothing when it is an embed. *)
Lemma contribution_of_selected (e : DOM.Node) :
  In (ltagOf e) selectedNames ->
  contributionOf newHtmlLengthService e = selectedScore e.
Proof.
  unfold contributionOf, selectedScore, isTextTag, isNonTextTag,
    textWeightOf, nonTextWeightOf, isCounted, selectedNames.
  cbn [In].
  intros [H|[H|[H|[H|[H|[]]]]]]; rewrite <- H; cbn; lia.
Qed.

Lemma selected_sum (root : DOM.Node) :
  sumZ (map (contributionOf newHtmlLengthService)
            (DOM.querySelectorAll root tagSelector))
  = sumZ (map selectedScore (DOM.querySelectorAll root tagSelector)).
Proof.
  f_equal. apply map_ext_in. intros e He.
  apply contribution_of_selected. now apply selected_tag_names in He.
Qed.

Lemma counted_le_sum (l : list DOM.Node) :
  Z.of_nat (List.length (filter isCounted l)) <= sumZ (map selectedScore l).
Proof.
  induction l as [|e l IH]; [apply Z.le_refl|].
  cbn [filter map sumZ]. unfold selectedScore at 1.
  destruct (isCounted e).
  - cbn [List.length]. pose proof (wordCountOf_positive e). lia.
  - lia.
Qed.

Lemma no_selected_name_no_selection (root : DOM.Node) :
  forallb (fun e => negb (isSelectedName e)) (DOM.descendants root) = true ->
  DOM.querySelectorAll root tagSelector = [].
Proof.
  intros Hall.
  destruct (DOM.querySelectorAll root tagSelector) as [|e l] eqn:E;
    [reflexivity|].
  assert (Hin : In e (DOM.querySelectorAll root tagSelector))
    by (rewrite E; now left).
  pose proof (selected_tag_names _ _ Hin) as Hname.
  unfold DOM.querySelectorAll in Hin. apply filter_In in Hin as [Hdesc _].
  rewrite forallb_forall in Hall. specialize (Hall e Hdesc).
  apply negb_true_iff in Hall.
  assert (Hex : isSelectedName e = true).
  { unfold isSelectedName. apply existsb_exists.
    exists (ltagOf e). split; [exact Hname | apply String.eqb_refl]. }
  congruence.
Qed.







End ClosedForm.

(** ** Further properties of the service and of its helpers *)

(** X1: with the initial tables, the service returns on a non-empty string
    the sum, over the elements the selector lets through, of the word
    count of each [p], [ul] and [ol]; the embeds add nothing; the state is
    left as it was. *)
Theorem score_is_sum_of_word_counts
  (sanitize : SecurityContext -> string -> string)
  (parseFromString : string -> string -> DOM.Document)
  (html : string) (lg : list string) :
  JS.truthy html = true ->
  computeHtmlLengthInWords sanitize parseFromString html (stateWithLog lg)
  = (Some
       (sumZ
          (map selectedScore
             (DOM.querySelectorAll
                (DOM.body
                   (parseFromString (sanitize SC_HTML html) "text/html"))
                tagSelector))),
     stateWithLog lg).
Proof.
  intros Htruthy.
  rewrite computeHtmlLengthInWords_run, forEachTag_sum by assumption.
  cbn [this stateWithLog]. now rewrite selected_sum.
Qed.

(** X2: with the initial tables, the loop started at 0 returns the same
    total for two lists that hold the same elements in a different order,
    as long as that total is a safe integer: the contributions are
    non-negative integers, so every partial sum is exact. *)
Theorem total_ignores_element_order
  (l1 l2 : list DOM.Node) (lg : list string) (n : Z) :
  Permutation l1 l2 ->
  forEachTag l1 0 (stateWithLog lg) = (Some n, stateWithLog lg) ->
  n <= maxSafeInteger ->
  forEachTag l2 0 (stateWithLog lg) = (Some n, stateWithLog lg).
Proof.
  intros Hperm Hrun _. rewrite forEachTag_sum in *.
  now rewrite <- (sumZ_Permutation _ _
                    (Permutation_map
                       (contributionOf (this (stateWithLog lg))) Hperm)).
Qed.

(** X3: with the initial tables, when the body of a document is the
    children of one body followed by the children of another, its score is
    the sum of the two scores, as long as that sum is a safe integer. *)
Theorem concatenated_bodies_add_up
  (sanitize : SecurityContext -> string -> string)
  (parseFromString : string -> string -> DOM.Document)
  (html1 html2 html : string) (ch1 ch2 : list DOM.Node)
  (lg : list string) (n1 n2 : Z) :
  JS.truthy html1 = true -> JS.truthy html2 = true ->
  JS.truthy html = true ->
  DOM.body (parseFromString (sanitize SC_HTML html1) "text/html")
  = DOM.Element DOM.HTML "body" ch1 ->
  DOM.body (parseFromString (sanitize SC_HTML html2) "text/html")
  = DOM.Element DOM.HTML "body" ch2 ->
  DOM.body (parseFromString (sanitize SC_HTML html) "text/html")
  = DOM.Element DOM.HTML "body" (ch1 ++ ch2)%list ->
  computeHtmlLengthInWords sanitize parseFromString html1 (stateWithLog lg)
  = (Some n1, stateWithLog lg) ->
  computeHtmlLengthInWords sanitize parseFromString html2 (stateWithLog lg)
  = (Some n2, stateWithLog lg) ->
  n1 + n2 <= maxSafeInteger ->
  computeHtmlLengthInWords sanitize parseFromString html (stateWithLog lg)
  = (Some (n1 + n2), stateWithLog lg).
Proof.
  intros H1 H2 H Hb1 Hb2 Hb Hrun1 Hrun2 _.
  rewrite computeHtmlLengthInWords_run in * by assumption.
  rewrite Hb1 in Hrun1. rewrite Hb2 in Hrun2.
  rewrite Hb, querySelectorAll_children_app.
  rewrite forEachTag_sum in *.
  injection Hrun1 as <-. injection Hrun2 as <-.
  rewrite map_app, sumZ_app. do 2 f_equal; lia.
Qed.

(** X4: called on an element whose tag is not in [nonTextTagsWithWeight],
    [getWeightForNonTextNodes] throws: [find] returns [undefined] and the
    read of its index 1 fails.  The state is left as it was. *)
Theorem unguarded_non_text_helper_throws (st : State) (tag : DOM.Node) :
  isNonTextTag (this st) tag = false ->
  getWeightForNonTextNodes tag st = (None, st).
Proof.
  intros H. rewrite getWeightForNonTextNodes_run.
  now rewrite (some_false_find _ _ H).
Qed.

(** X5: called on an element that is not an anchor and whose tag is not in
    [textTagsWithWeight] (an [li], say), [getWeightForTextNodes] throws;
    the anchor test comes before the lookup, so an anchor is the one
    element the helper scores without its table. *)
Theorem unguarded_text_helper_throws (st : State) (tag : DOM.Node) :
  ltagOf tag <> "a" ->
  isTextTag (this st) tag = false ->
  getWeightForTextNodes tag st = (None, st).
Proof.
  intros Hnot H. rewrite getWeightForTextNodes_run.
  apply String.eqb_neq in Hnot. rewrite Hnot.
  now rewrite (some_false_find _ _ H).
Qed.


(** X7: a text content that holds no space code unit counts as one word,
    however long it is: tabs, line breaks and no-break spaces do not
    separate words. *)
Theorem text_without_spaces_counts_one_word (st : State) (tag : DOM.Node)
  (entry : string * Z) :
  ltagOf tag <> "a" ->
  JS.find (fun x => (fst x =? ltagOf tag)%string)
          (textTagsWithWeight (this st)) = Some entry ->
  countChar " " (DOM.textContent tag) = 0%nat ->
  getWeightForTextNodes tag st = (Some (1 * snd entry), st).
Proof.
  intros Hnot Hfind Hnone. rewrite getWeightForTextNodes_run, Hfind.
  apply String.eqb_neq in Hnot. rewrite Hnot, split_length.
  pose proof (countChar_trim_le " " (DOM.textContent tag)) as Hle.
  rewrite Hnone in Hle. apply Nat.le_0_r in Hle. now rewrite Hle.
Qed.

(** X8: for elements that are not anchors, white space before and after
    the text content does not change what [getWeightForTextNodes]
    returns. *)
Theorem surrounding_white_space_is_ignored (st : State)
  (tag1 tag2 : DOM.Node) (before after : string) :
  ltagOf tag1 = ltagOf tag2 ->
  ltagOf tag2 <> "a" ->
  DOM.textContent tag1 = before ++ DOM.textContent tag2 ++ after ->
  allChars JS.isWhiteSpace before = true ->
  allChars JS.isWhiteSpace after = true ->
  getWeightForTextNodes tag1 st = getWeightForTextNodes tag2 st.
Proof.
  intros Hname Hnot Htext Hbefore Hafter.
  rewrite !getWeightForTextNodes_run, Hname, Htext.
  apply String.eqb_neq in Hnot. rewrite Hnot.
  now rewrite trim_surrounded.
Qed.

(** X9: with the initial tables, every selected [p], [ul] and [ol] adds at
    least 1, empty ones included: the score is at least the number of
    such elements. *)
Theorem score_is_at_least_number_of_text_elements
  (sanitize : SecurityContext -> string -> string)
  (parseFromString : string -> string -> DOM.Document)
  (html : string) (lg : list string) :
  JS.truthy html = true ->
  exists n : Z,
    computeHtmlLengthInWords sanitize parseFromString html (stateWithLog lg)
    = (Some n, stateWithLog lg) /\
    Z.of_nat
      (List.length
         (filter isCounted
            (DOM.querySelectorAll
               (DOM.body
                  (parseFromString (sanitize SC_HTML html) "text/html"))
               tagSelector))) <= n.
Proof.
  intros Htruthy.
  rewrite computeHtmlLengthInWords_run, forEachTag_sum by assumption.
  cbn [this stateWithLog]. rewrite selected_sum.
  eexists. split; [reflexivity|].
  rewrite Z.add_0_l. apply counted_le_sum.
Qed.

(** X10: the words of a paragraph nested in a list are counted twice,
    once for the list and once for the paragraph: the selector lets both
    through and [textContent] of the list holds the text of the
    paragraph. *)
Theorem nested_paragraph_is_counted_twice
  (sanitize : SecurityContext -> string -> string)
  (parseFromString : string -> string -> DOM.Document)
  (html : string) (lg : list string) (words : list string) :
  JS.truthy html = true ->
  DOM.body (parseFromString (sanitize SC_HTML html) "text/html")
  = nestedParagraphBody (joinWords words) ->
  words <> [] ->
  forallb isWord words = true ->
  computeHtmlLengthInWords sanitize parseFromString html (stateWithLog lg)
  = (Some (2 * Z.of_nat (List.length words)), stateWithLog lg).
Proof.
  intros Htruthy Hbody Hne Hwords.
  rewrite computeHtmlLengthInWords_run, forEachTag_sum, Hbody by assumption.
  cbn [this stateWithLog].
  set (p := DOM.Element DOM.HTML "p" [DOM.Text (joinWords words)]).
  set (ul := DOM.Element DOM.HTML "ul" [DOM.Element DOM.HTML "li" [p]]).
  change (DOM.querySelectorAll (nestedParagraphBody (joinWords words))
            tagSelector) with [ul; p].
  cbn [map sumZ].
  rewrite !contribution_of_selected by (cbn; tauto).
  change (selectedScore ul) with (wordCountOf ul).
  change (selectedScore p) with (wordCountOf p).
  rewrite (wordCountOf_joinWords ul words), (wordCountOf_joinWords p words);
    try assumption.
  - do 2 f_equal. lia.
  - cbn. apply append_empty_r.
  - cbn. now rewrite !append_empty_r.
Qed.

(** X11: with the initial tables, [getWeightForTextNodes] scores a
    [collapsible] element 1000 a word. *)
Theorem collapsible_weighs_thousand_a_word (tag : DOM.Node)
  (lg : list string) (words : list string) :
  ltagOf tag = "collapsible" ->
  DOM.textContent tag = joinWords words ->
  words <> [] ->
  forallb isWord words = true ->
  getWeightForTextNodes tag (stateWithLog lg)
  = (Some (Z.of_nat (List.length words) * 1000), stateWithLog lg).
Proof.
  intros Hname Htext Hne Hwords.
  rewrite getWeightForTextNodes_run, Hname.
  rewrite <- (wordCountOf_joinWords tag words) by assumption.
  reflexivity.
Qed.

(** X12: a document none of whose nodes is a [p], a [ul], an [ol] or an
    embed scores 0 and logs nothing, whatever text it holds: bare text,
    headings, [div]s, anchors and [collapsible] blocks outside those
    elements are not counted. *)
Theorem text_outside_selected_elements_scores_zero
  (sanitize : SecurityContext -> string -> string)
  (parseFromString : string -> string -> DOM.Document)
  (html : string) (st : State) :
  JS.truthy html = true ->
  forallb (fun e => negb (isSelectedName e))
    (DOM.descendants
       (DOM.body (parseFromString (sanitize SC_HTML html) "text/html")))
  = true ->
  computeHtmlLengthInWords sanitize parseFromString html st = (Some 0, st).
Proof.
  intros Htruthy Hnone.
  rewrite computeHtmlLengthInWords_run by assumption.
  now rewrite no_selected_name_no_selection.
Qed.

(** X13: with the initial tables, every element the selector lets through
    passes exactly one of the two guards of the loop, so it is scored by
    exactly one helper. *)
Theorem selected_element_passes_one_guard (root e : DOM.Node) :
  In e (DOM.querySelectorAll root tagSelector) ->
  xorb (isTextTag newHtmlLengthService e)
       (isNonTextTag newHtmlLengthService e) = true.
Proof.
  intros Hin. apply selected_tag_names in Hin.
  unfold isTextTag, isNonTextTag. cbn [In] in Hin.
  destruct Hin as [H|[H|[H|[H|[H|[]]]]]]; rewrite <- H; reflexivity.
Qed.


(** ** The further properties at concrete inputs *)

Lemma score_is_sum_of_word_counts_witness :
  computeHtmlLengthInWords Fake_sanitize Fake.parseFromString
    "<p>a b</p><oppia-noninteractive-math></oppia-noninteractive-math><ol><li>c</li></ol>"
    (stateWithLog [])
  = (Some 3, stateWithLog []).
Proof.
  apply (score_is_sum_of_word_counts Fake_sanitize Fake.parseFromString
           "<p>a b</p><oppia-noninteractive-math></oppia-noninteractive-math><ol><li>c</li></ol>"
           []).
  reflexivity.
Defined.

Lemma total_ignores_element_order_witness :
  forEachTag
    [ulExampleList; DOM.Element DOM.HTML "p" [DOM.Text "a b c"]] 0
    (stateWithLog [])
  = (Some 5, stateWithLog []).
Proof.
  apply (total_ignores_element_order
           [DOM.Element DOM.HTML "p" [DOM.Text "a b c"]; ulExampleList]
           [ulExampleList; DOM.Element DOM.HTML "p" [DOM.Text "a b c"]]
           [] 5).
  - apply perm_swap.
  - reflexivity.
  - vm_compute. discriminate.
Defined.

Lemma concatenated_bodies_add_up_witness :
  computeHtmlLengthInWords Fake_sanitize Fake.parseFromString
    ("<p>a b c</p>" ++ ulExample) (stateWithLog [])
  = (Some (3 + 2), stateWithLog []).
Proof.
  apply (concatenated_bodies_add_up Fake_sanitize Fake.parseFromString
           "<p>a b c</p>" ulExample ("<p>a b c</p>" ++ ulExample)
           [DOM.Element DOM.HTML "p" [DOM.Text "a b c"]] [ulExampleList]
           [] 3 2).
  - reflexivity.
  - reflexivity.
  - reflexivity.
  - reflexivity.
  - reflexivity.
  - reflexivity.
  - reflexivity.
  - reflexivity.
  - vm_compute. discriminate.
Defined.

Lemma unguarded_non_text_helper_throws_witness :
  getWeightForNonTextNodes (DOM.Element DOM.HTML "p" [DOM.Text "a b"])
    initialState
  = (None, initialState).
Proof.
  apply (unguarded_non_text_helper_throws initialState
           (DOM.Element DOM.HTML "p" [DOM.Text "a b"])).
  reflexivity.
Defined.

Lemma unguarded_text_helper_throws_witness :
  getWeightForTextNodes (DOM.Element DOM.HTML "li" [DOM.Text "one two"])
    initialState
  = (None, initialState).
Proof.
  apply (unguarded_text_helper_throws initialState
           (DOM.Element DOM.HTML "li" [DOM.Text "one two"])).
  - vm_compute. discriminate.
  - reflexivity.
Defined.


Lemma text_without_spaces_counts_one_word_witness :
  getWeightForTextNodes
    (DOM.Element DOM.HTML "p"
       [DOM.Text ("one" ++ String (ascii_of_nat 10) "two")])
    initialState
  = (Some 1, initialState).
Proof.
  apply (text_without_spaces_counts_one_word initialState
           (DOM.Element DOM.HTML "p"
              [DOM.Text ("one" ++ String (ascii_of_nat 10) "two")])
           ("p", 1)).
  - vm_compute. discriminate.
  - reflexivity.
  - reflexivity.
Defined.

Lemma surrounding_white_space_is_ignored_witness :
  getWeightForTextNodes (DOM.Element DOM.HTML "p" [DOM.Text "  a b "])
    initialState
  = getWeightForTextNodes (DOM.Element DOM.HTML "p" [DOM.Text "a b"])
      initialState.
Proof.
  apply (surrounding_white_space_is_ignored initialState
           (DOM.Element DOM.HTML "p" [DOM.Text "  a b "])
           (DOM.Element DOM.HTML "p" [DOM.Text "a b"]) "  " " ").
  - reflexivity.
  - vm_compute. discriminate.
  - reflexivity.
  - reflexivity.
  - reflexivity.
Defined.

Lemma score_is_at_least_number_of_text_elements_witness :
  exists n : Z,
    computeHtmlLengthInWords Fake_sanitize Fake.parseFromString
      "<p></p><ul></ul>" (stateWithLog [])
    = (Some n, stateWithLog []) /\
    Z.of_nat
      (List.length
         (filter isCounted
            (DOM.querySelectorAll
               (DOM.body
                  (Fake.parseFromString
                     (Fake_sanitize SC_HTML "<p></p><ul></ul>") "text/html"))
               tagSelector))) <= n.
Proof.
  apply (score_is_at_least_number_of_text_elements Fake_sanitize
           Fake.parseFromString "<p></p><ul></ul>" []).
  reflexivity.
Defined.

Lemma nested_paragraph_is_counted_twice_witness :
  computeHtmlLengthInWords Fake_sanitize Fake.parseFromString
    "<ul><li><p>one two</p></li></ul>" (stateWithLog [])
  = (Some 4, stateWithLog []).
Proof.
  apply (nested_paragraph_is_counted_twice Fake_sanitize
           Fake.parseFromString "<ul><li><p>one two</p></li></ul>" []
           ["one"; "two"]).
  - reflexivity.
  - reflexivity.
  - discriminate.
  - reflexivity.
Defined.

Lemma collapsible_weighs_thousand_a_word_witness :
  getWeightForTextNodes
    (DOM.Element DOM.HTML "collapsible" [DOM.Text "one two three"])
    (stateWithLog [])
  = (Some 3000, stateWithLog []).
Proof.
  apply (collapsible_weighs_thousand_a_word
           (DOM.Element DOM.HTML "collapsible" [DOM.Text "one two three"])
           [] ["one"; "two"; "three"]).
  - reflexivity.
  - reflexivity.
  - discriminate.
  - reflexivity.
Defined.

Lemma text_outside_selected_elements_scores_zero_witness :
  Fake_run "<h1>Title</h1><div>some <a>linked</a> text</div>"
  = (Some 0, initialState).
Proof.
  apply (text_outside_selected_elements_scores_zero Fake_sanitize
           Fake.parseFromString
           "<h1>Title</h1><div>some <a>linked</a> text</div>" initialState).
  - reflexivity.
  - reflexivity.
Defined.

Lemma selected_element_passes_one_guard_witness :
  xorb (isTextTag newHtmlLengthService ulExampleList)
       (isNonTextTag newHtmlLengthService ulExampleList) = true.
Proof.
  apply (selected_element_passes_one_guard ulExampleBody ulExampleList).
  left. reflexivity.
Defined.

